(* ===================================================================== *)
(*  libmongocrypt: KEK descriptors, the context dispatcher and the Java   *)
(*  binding helper, embedded in Rocq.                                     *)
(*                                                                        *)
(*  Sources embedded:                                                     *)
(*    src/mongocrypt-kek.c      parse / append / copy_to of a KEK         *)
(*    mongocrypt-ctx.c          the driver entry points of a context      *)
(*    CAPIHelper.java           document <-> native binary conversion     *)
(*                                                                        *)
(*  Part I holds the definitions, Part II the theorems.                   *)
(* ===================================================================== *)

From Stdlib Require Import ZArith NArith String Ascii List Bool Lia.
From stdpp Require Import base option list gmap.
Import ListNotations.

Local Open Scope string_scope.
Local Open Scope list_scope.

(* ===================================================================== *)
(*  PART I.  DEFINITIONS                                                  *)
(* ===================================================================== *)

(* --------------------------------------------------------------------- *)
(*  1. Calls that may not return                                          *)
(* --------------------------------------------------------------------- *)

(** A C call either returns a value or stops the process: BSON_ASSERT on a
    false condition, or a call through a NULL pointer. *)
Inductive outcome (A : Type) : Type :=
| Returned (a : A)
| Aborted.
Arguments Returned {A} a.
Arguments Aborted {A}.

(* --------------------------------------------------------------------- *)
(*  2. The status channel                                                 *)
(* --------------------------------------------------------------------- *)

Inductive mongocrypt_status_type_t : Type :=
| MONGOCRYPT_STATUS_OK
| MONGOCRYPT_STATUS_ERROR_CLIENT
| MONGOCRYPT_STATUS_ERROR_KMS.

(** Modelled from the spec: the status record (mongocrypt-status.c is not
    among the sources).  "Kind, numeric code, UTF-8 message." *)
Record mongocrypt_status_t : Type := {
  status_type : mongocrypt_status_type_t;
  status_code : Z;
  status_message : string
}.

(** Modelled from the spec: mongocrypt_status_ok, true exactly on kind ok. *)
Definition mongocrypt_status_ok (status : mongocrypt_status_t) : bool :=
  match status_type status with
  | MONGOCRYPT_STATUS_OK => true
  | _ => false
  end.

(** Modelled from the spec: _mongocrypt_set_error (status, type, code, fmt, ...)
    writes kind, code and the formatted message into the status ("any failing
    call sets status").  The formatted text is passed in already built. *)
Definition _mongocrypt_set_error (status : mongocrypt_status_t)
    (type : mongocrypt_status_type_t) (code : Z) (message : string)
    : mongocrypt_status_t :=
  {| status_type := type; status_code := code; status_message := message |}.

(** Modelled from the spec: _mongocrypt_status_copy_to (src, dst), "copy
    current status": dst becomes src. *)
Definition _mongocrypt_status_copy_to (src dst : mongocrypt_status_t)
    : mongocrypt_status_t := src.

(** Modelled from the spec: _mongocrypt_status_reset, "writes a reset/ok
    status": kind ok, no code, no message. *)
Definition _mongocrypt_status_reset (status : mongocrypt_status_t)
    : mongocrypt_status_t :=
  {| status_type := MONGOCRYPT_STATUS_OK; status_code := 0;
     status_message := "" |}.

(** The numeric code of a generic error.  Its value is fixed by a header that
    is not among the sources, so it is a parameter of the development. *)
Class ErrorCodes : Type := {
  MONGOCRYPT_GENERIC_ERROR_CODE : Z
}.

(** Modelled from the spec: CLIENT_ERR (fmt, ...), a macro of
    mongocrypt-private.h (not among the sources), "fail with client error":
    _mongocrypt_set_error with the client kind and the generic code, as
    _mongocrypt_ctx_fail_w_msg writes it out in mongocrypt-ctx.c. *)
Definition CLIENT_ERR `{ErrorCodes} (status : mongocrypt_status_t)
    (message : string) : mongocrypt_status_t :=
  _mongocrypt_set_error status MONGOCRYPT_STATUS_ERROR_CLIENT
    MONGOCRYPT_GENERIC_ERROR_CODE message.

(* --------------------------------------------------------------------- *)
(*  3. Heap blocks and C strings                                          *)
(* --------------------------------------------------------------------- *)

(** An allocated object: the address of its block and its contents.  The
    blocks of this code are written once, when they are allocated, so the
    contents travel with the address. *)
Record block (A : Type) : Type := {
  blk_addr : N;
  blk_val : A
}.
Arguments blk_addr {A} b.
Arguments blk_val {A} b.

(** A pointer: NULL or a block. *)
Definition ptr (A : Type) : Type := option (block A).

(** char *: NULL or an owned, NUL-terminated string. *)
Definition cstr : Type := ptr string.

(** The allocator: the next unused address.  An address names an allocation
    and is never handed out twice. *)
Definition heap_t : Type := N.

Definition malloc {A : Type} (v : A) (heap : heap_t) : block A * heap_t :=
  ({| blk_addr := heap; blk_val := v |}, N.succ heap).

(** bson_strdup: NULL for NULL, otherwise a fresh block with the same
    characters. *)
Definition bson_strdup (s : cstr) (heap : heap_t) : cstr * heap_t :=
  match s with
  | None => (None, heap)
  | Some b => let '(b', heap') := malloc (blk_val b) heap in (Some b', heap')
  end.

(** The characters behind a char *, NULL being None. *)
Definition chars (s : cstr) : option string := option_map blk_val s.

(** strcmp: zero exactly on equal strings. *)
Definition strcmp (a b : string) : Z :=
  match String.compare a b with
  | Eq => 0
  | Lt => -1
  | Gt => 1
  end%Z.

(* --------------------------------------------------------------------- *)
(*  4. BSON documents                                                     *)
(* --------------------------------------------------------------------- *)

Inductive bson_value : Type :=
| BSON_UTF8 (s : string)
| BSON_NULL
| BSON_INT32 (z : Z)
| BSON_BOOL (b : bool)
| BSON_BINARY (bytes : list Byte.byte).

(** A document is its sequence of elements; keys may repeat and order is
    kept. *)
Definition bson_t : Type := list (string * bson_value).

(** bson_iter_find: the first element with the key. *)
Fixpoint bson_iter_find (bson : bson_t) (key : string) : option bson_value :=
  match bson with
  | [] => None
  | (k, v) :: rest => if String.eqb k key then Some v else bson_iter_find rest key
  end.

(** BSON_APPEND_UTF8 (bson, key, value): one element more at the end; libbson
    appends a null element for a NULL value. *)
Definition BSON_APPEND_UTF8 (bson : bson_t) (key : string)
    (value : option string) : bson_t :=
  bson ++ [(key, match value with
                 | Some s => BSON_UTF8 s
                 | None => BSON_NULL
                 end)].

(* --------------------------------------------------------------------- *)
(*  5. The KEK descriptor (mongocrypt-kek.c)                              *)
(* --------------------------------------------------------------------- *)

Inductive _mongocrypt_kms_provider_t : Type :=
| MONGOCRYPT_KMS_PROVIDER_AWS
| MONGOCRYPT_KMS_PROVIDER_LOCAL
| MONGOCRYPT_KMS_PROVIDER_AZURE
| MONGOCRYPT_KMS_PROVIDER_GCP.

(** The == of the C enum. *)
Definition kms_provider_eqb (a b : _mongocrypt_kms_provider_t) : bool :=
  match a, b with
  | MONGOCRYPT_KMS_PROVIDER_AWS, MONGOCRYPT_KMS_PROVIDER_AWS => true
  | MONGOCRYPT_KMS_PROVIDER_LOCAL, MONGOCRYPT_KMS_PROVIDER_LOCAL => true
  | MONGOCRYPT_KMS_PROVIDER_AZURE, MONGOCRYPT_KMS_PROVIDER_AZURE => true
  | MONGOCRYPT_KMS_PROVIDER_GCP, MONGOCRYPT_KMS_PROVIDER_GCP => true
  | _, _ => false
  end.

(** mongocrypt-endpoint.c is not among the sources.  The KEK code reads one
    field of an endpoint, host_and_port, and builds endpoints only through the
    parse helpers, so the endpoint structure and its parser are parameters:
    _mongocrypt_endpoint_new gives None for text that is no endpoint. *)
Class Endpoint : Type := {
  _mongocrypt_endpoint_t : Type;
  host_and_port : _mongocrypt_endpoint_t -> string;
  _mongocrypt_endpoint_new : string -> option _mongocrypt_endpoint_t
}.

(** What the parse helpers of mongocrypt-opts.c (not among the sources) ask of
    a required string beyond its BSON type (the spec: "valid UTF-8 and
    non-empty"), and the message they report for a field, by its key. *)
Class FieldRules : Type := {
  utf8_accepted : string -> bool;
  helper_error : string -> string
}.

Section KekDefinitions.
Context `{ErrorCodes} `{Endpoint} `{FieldRules}.

Record aws_t : Type := mk_aws {
  aws_cmk : cstr;
  aws_region : cstr;
  aws_endpoint : ptr _mongocrypt_endpoint_t
}.

Record azure_t : Type := mk_azure {
  azure_key_vault_endpoint : ptr _mongocrypt_endpoint_t;
  azure_key_name : cstr;
  azure_key_version : cstr
}.

Record gcp_t : Type := mk_gcp {
  gcp_project_id : cstr;
  gcp_location : cstr;
  gcp_key_ring : cstr;
  gcp_key_name : cstr;
  gcp_key_version : cstr;
  gcp_endpoint : ptr _mongocrypt_endpoint_t
}.

(** The union `provider`.  Its members are kept side by side: the code reads
    and writes only the member that kms_provider selects, so the overlay of
    the members in memory is never observed. *)
Record provider_u : Type := mk_provider {
  aws : aws_t;
  azure : azure_t;
  gcp : gcp_t
}.

Record _mongocrypt_kek_t : Type := mk_kek {
  kms_provider : _mongocrypt_kms_provider_t;
  provider : provider_u
}.

(* Assignments to the fields of a descriptor. *)

Definition set_kms_provider (v : _mongocrypt_kms_provider_t)
    (kek : _mongocrypt_kek_t) : _mongocrypt_kek_t :=
  let '(mk_kek _ u) := kek in mk_kek v u.

Definition with_aws (f : aws_t -> aws_t) (kek : _mongocrypt_kek_t)
    : _mongocrypt_kek_t :=
  let '(mk_kek tag (mk_provider a z g)) := kek in
  mk_kek tag (mk_provider (f a) z g).

Definition with_azure (f : azure_t -> azure_t) (kek : _mongocrypt_kek_t)
    : _mongocrypt_kek_t :=
  let '(mk_kek tag (mk_provider a z g)) := kek in
  mk_kek tag (mk_provider a (f z) g).

Definition with_gcp (f : gcp_t -> gcp_t) (kek : _mongocrypt_kek_t)
    : _mongocrypt_kek_t :=
  let '(mk_kek tag (mk_provider a z g)) := kek in
  mk_kek tag (mk_provider a z (f g)).

Definition set_aws_cmk (v : cstr) : _mongocrypt_kek_t -> _mongocrypt_kek_t :=
  with_aws (fun '(mk_aws _ region endpoint) => mk_aws v region endpoint).

Definition set_aws_region (v : cstr) : _mongocrypt_kek_t -> _mongocrypt_kek_t :=
  with_aws (fun '(mk_aws cmk _ endpoint) => mk_aws cmk v endpoint).

Definition set_aws_endpoint (v : ptr _mongocrypt_endpoint_t)
    : _mongocrypt_kek_t -> _mongocrypt_kek_t :=
  with_aws (fun '(mk_aws cmk region _) => mk_aws cmk region v).

Definition set_azure_key_vault_endpoint (v : ptr _mongocrypt_endpoint_t)
    : _mongocrypt_kek_t -> _mongocrypt_kek_t :=
  with_azure (fun '(mk_azure _ name version) => mk_azure v name version).

Definition set_azure_key_name (v : cstr)
    : _mongocrypt_kek_t -> _mongocrypt_kek_t :=
  with_azure (fun '(mk_azure kve _ version) => mk_azure kve v version).

Definition set_azure_key_version (v : cstr)
    : _mongocrypt_kek_t -> _mongocrypt_kek_t :=
  with_azure (fun '(mk_azure kve name _) => mk_azure kve name v).

Definition set_gcp_project_id (v : cstr)
    : _mongocrypt_kek_t -> _mongocrypt_kek_t :=
  with_gcp (fun '(mk_gcp _ loc ring name version endpoint) =>
              mk_gcp v loc ring name version endpoint).

Definition set_gcp_location (v : cstr)
    : _mongocrypt_kek_t -> _mongocrypt_kek_t :=
  with_gcp (fun '(mk_gcp pid _ ring name version endpoint) =>
              mk_gcp pid v ring name version endpoint).

Definition set_gcp_key_ring (v : cstr)
    : _mongocrypt_kek_t -> _mongocrypt_kek_t :=
  with_gcp (fun '(mk_gcp pid loc _ name version endpoint) =>
              mk_gcp pid loc v name version endpoint).

Definition set_gcp_key_name (v : cstr)
    : _mongocrypt_kek_t -> _mongocrypt_kek_t :=
  with_gcp (fun '(mk_gcp pid loc ring _ version endpoint) =>
              mk_gcp pid loc ring v version endpoint).

Definition set_gcp_key_version (v : cstr)
    : _mongocrypt_kek_t -> _mongocrypt_kek_t :=
  with_gcp (fun '(mk_gcp pid loc ring name _ endpoint) =>
              mk_gcp pid loc ring name v endpoint).

Definition set_gcp_endpoint (v : ptr _mongocrypt_endpoint_t)
    : _mongocrypt_kek_t -> _mongocrypt_kek_t :=
  with_gcp (fun '(mk_gcp pid loc ring name version _) =>
              mk_gcp pid loc ring name version v).

(** What a parse reads and writes: the descriptor under construction, the
    caller's status and the allocator.  A helper that returns false ends the
    parse (the `goto done` of the C code): None below. *)
Record parse_state : Type := mk_parse_state {
  ps_kek : _mongocrypt_kek_t;
  ps_status : mongocrypt_status_t;
  ps_heap : heap_t
}.

Definition parser (A : Type) : Type := parse_state -> option A * parse_state.

Definition parser_ret {A : Type} (a : A) : parser A := fun st => (Some a, st).

Definition parser_bind {A B : Type} (m : parser A) (k : A -> parser B)
    : parser B :=
  fun st =>
    match m st with
    | (Some a, st') => k a st'
    | (None, st') => (None, st')
    end.

Notation "x <- m ;; k" := (parser_bind m (fun x => k))
  (at level 100, m at next level, right associativity).
Notation "m ;;; k" := (parser_bind m (fun _ => k))
  (at level 100, right associativity).

(** kek->field = v *)
Definition assign (set : _mongocrypt_kek_t -> _mongocrypt_kek_t) : parser unit :=
  fun '(mk_parse_state kek status heap) =>
    (Some tt, mk_parse_state (set kek) status heap).

(** CLIENT_ERR (...); goto done *)
Definition parser_client_err {A : Type} (message : string) : parser A :=
  fun '(mk_parse_state kek status heap) =>
    (None, mk_parse_state kek (CLIENT_ERR status message) heap).

(** A fresh block holding v. *)
Definition parser_alloc {A : Type} (v : A) : parser (block A) :=
  fun '(mk_parse_state kek status heap) =>
    let '(b, heap') := malloc v heap in
    (Some b, mk_parse_state kek status heap').

(** Modelled from the spec: _mongocrypt_parse_optional_utf8 (bson, key, out,
    status), of mongocrypt-opts.c.  "Accept optional": an absent field gives
    NULL, a string field an owned copy of it ("the parse takes ownership of
    its decoded strings"), a field of another type a client error. *)
Definition _mongocrypt_parse_optional_utf8 (bson : bson_t) (dotkey : string)
    : parser cstr :=
  match bson_iter_find bson dotkey with
  | None => parser_ret None
  | Some (BSON_UTF8 s) => b <- parser_alloc s ;; parser_ret (Some b)
  | Some _ => parser_client_err (helper_error dotkey)
  end.

(** Modelled from the spec: _mongocrypt_parse_required_utf8.  "Require": the
    field must be there, hold a string, and the string must be acceptable
    ("valid UTF-8 and non-empty"); anything else is a client error. *)
Definition _mongocrypt_parse_required_utf8 (bson : bson_t) (dotkey : string)
    : parser (block string) :=
  match bson_iter_find bson dotkey with
  | Some (BSON_UTF8 s) =>
      if utf8_accepted s then parser_alloc s
      else parser_client_err (helper_error dotkey)
  | _ => parser_client_err (helper_error dotkey)
  end.

(** Modelled from the spec: _mongocrypt_parse_optional_endpoint.  An absent
    field gives NULL; a string field "must parse into host-and-port form" and
    gives a new endpoint; anything else is a client error. *)
Definition _mongocrypt_parse_optional_endpoint (bson : bson_t) (dotkey : string)
    : parser (ptr _mongocrypt_endpoint_t) :=
  match bson_iter_find bson dotkey with
  | None => parser_ret None
  | Some (BSON_UTF8 s) =>
      match _mongocrypt_endpoint_new s with
      | Some e => b <- parser_alloc e ;; parser_ret (Some b)
      | None => parser_client_err (helper_error dotkey)
      end
  | Some _ => parser_client_err (helper_error dotkey)
  end.

(** Modelled from the spec: _mongocrypt_parse_required_endpoint, the same with
    the field required. *)
Definition _mongocrypt_parse_required_endpoint (bson : bson_t) (dotkey : string)
    : parser (block _mongocrypt_endpoint_t) :=
  match bson_iter_find bson dotkey with
  | Some (BSON_UTF8 s) =>
      match _mongocrypt_endpoint_new s with
      | Some e => parser_alloc e
      | None => parser_client_err (helper_error dotkey)
      end
  | _ => parser_client_err (helper_error dotkey)
  end.

(** The body of _mongocrypt_kek_parse_owned up to the label `done`. *)
Definition _mongocrypt_kek_parse_owned_body (bson : bson_t) : parser unit :=
  kms_provider <- _mongocrypt_parse_required_utf8 bson "provider" ;;
  let kms_provider := blk_val kms_provider in
  if (0 =? strcmp kms_provider "aws")%Z then
    assign (set_kms_provider MONGOCRYPT_KMS_PROVIDER_AWS) ;;;
    v <- _mongocrypt_parse_required_utf8 bson "key" ;;
    assign (set_aws_cmk (Some v)) ;;;
    v <- _mongocrypt_parse_required_utf8 bson "region" ;;
    assign (set_aws_region (Some v)) ;;;
    v <- _mongocrypt_parse_optional_endpoint bson "endpoint" ;;
    assign (set_aws_endpoint v)
  else if (0 =? strcmp kms_provider "local")%Z then
    assign (set_kms_provider MONGOCRYPT_KMS_PROVIDER_LOCAL)
  else if (0 =? strcmp kms_provider "azure")%Z then
    assign (set_kms_provider MONGOCRYPT_KMS_PROVIDER_AZURE) ;;;
    v <- _mongocrypt_parse_required_endpoint bson "keyVaultEndpoint" ;;
    assign (set_azure_key_vault_endpoint (Some v)) ;;;
    v <- _mongocrypt_parse_required_utf8 bson "keyName" ;;
    assign (set_azure_key_name (Some v)) ;;;
    v <- _mongocrypt_parse_optional_utf8 bson "keyVersion" ;;
    assign (set_azure_key_version v)
  else if (0 =? strcmp kms_provider "gcp")%Z then
    assign (set_kms_provider MONGOCRYPT_KMS_PROVIDER_GCP) ;;;
    v <- _mongocrypt_parse_optional_endpoint bson "endpoint" ;;
    assign (set_gcp_endpoint v) ;;;
    v <- _mongocrypt_parse_required_utf8 bson "projectId" ;;
    assign (set_gcp_project_id (Some v)) ;;;
    v <- _mongocrypt_parse_required_utf8 bson "location" ;;
    assign (set_gcp_location (Some v)) ;;;
    v <- _mongocrypt_parse_required_utf8 bson "keyRing" ;;
    assign (set_gcp_key_ring (Some v)) ;;;
    v <- _mongocrypt_parse_required_utf8 bson "keyName" ;;
    assign (set_gcp_key_name (Some v)) ;;;
    v <- _mongocrypt_parse_optional_utf8 bson "keyVersion" ;;
    assign (set_gcp_key_version v)
  else
    parser_client_err ("unrecognized KMS provider: " ++ kms_provider).

(** _mongocrypt_kek_parse_owned (bson, kek, status): ret is true when the body
    ran to its end.  The descriptor, the status and the allocator are returned
    as the call leaves them; freeing kms_provider at `done` changes none. *)
Definition _mongocrypt_kek_parse_owned (bson : bson_t) (kek : _mongocrypt_kek_t)
    (status : mongocrypt_status_t) (heap : heap_t)
    : bool * _mongocrypt_kek_t * mongocrypt_status_t * heap_t :=
  let '(ret, mk_parse_state kek status heap) :=
    _mongocrypt_kek_parse_owned_body bson (mk_parse_state kek status heap) in
  (match ret with Some _ => true | None => false end, kek, status, heap).

(** endpoint->host_and_port on a pointer that may be NULL. *)
Definition endpoint_host_and_port (e : ptr _mongocrypt_endpoint_t)
    : option string :=
  option_map (fun b => host_and_port (blk_val b)) e.

(** _mongocrypt_kek_append (kek, bson, status).  The status is not touched.
    Reading host_and_port through a NULL keyVaultEndpoint stops the process. *)
Definition _mongocrypt_kek_append (kek : _mongocrypt_kek_t) (bson : bson_t)
    (status : mongocrypt_status_t) : outcome (bool * bson_t) :=
  if kms_provider_eqb (kms_provider kek) MONGOCRYPT_KMS_PROVIDER_AWS then
    let bson := BSON_APPEND_UTF8 bson "provider" (Some "aws") in
    let bson := BSON_APPEND_UTF8 bson "region"
                  (chars (aws_region (aws (provider kek)))) in
    let bson := BSON_APPEND_UTF8 bson "key"
                  (chars (aws_cmk (aws (provider kek)))) in
    let bson := match aws_endpoint (aws (provider kek)) with
                | Some e => BSON_APPEND_UTF8 bson "endpoint"
                              (Some (host_and_port (blk_val e)))
                | None => bson
                end in
    Returned (true, bson)
  else if kms_provider_eqb (kms_provider kek) MONGOCRYPT_KMS_PROVIDER_LOCAL then
    Returned (true, BSON_APPEND_UTF8 bson "provider" (Some "local"))
  else if kms_provider_eqb (kms_provider kek) MONGOCRYPT_KMS_PROVIDER_AZURE then
    let bson := BSON_APPEND_UTF8 bson "provider" (Some "azure") in
    match azure_key_vault_endpoint (azure (provider kek)) with
    | None => Aborted
    | Some e =>
        let bson := BSON_APPEND_UTF8 bson "keyVaultEndpoint"
                      (Some (host_and_port (blk_val e))) in
        let bson := BSON_APPEND_UTF8 bson "keyName"
                      (chars (azure_key_name (azure (provider kek)))) in
        let bson := match azure_key_version (azure (provider kek)) with
                    | Some v => BSON_APPEND_UTF8 bson "keyVersion"
                                  (Some (blk_val v))
                    | None => bson
                    end in
        Returned (true, bson)
    end
  else if kms_provider_eqb (kms_provider kek) MONGOCRYPT_KMS_PROVIDER_GCP then
    let bson := BSON_APPEND_UTF8 bson "provider" (Some "gcp") in
    let bson := BSON_APPEND_UTF8 bson "projectId"
                  (chars (gcp_project_id (gcp (provider kek)))) in
    let bson := BSON_APPEND_UTF8 bson "location"
                  (chars (gcp_location (gcp (provider kek)))) in
    let bson := BSON_APPEND_UTF8 bson "keyRing"
                  (chars (gcp_key_ring (gcp (provider kek)))) in
    let bson := BSON_APPEND_UTF8 bson "keyName"
                  (chars (gcp_key_name (gcp (provider kek)))) in
    let bson := match gcp_key_version (gcp (provider kek)) with
                | Some v => BSON_APPEND_UTF8 bson "keyVersion"
                              (Some (blk_val v))
                | None => bson
                end in
    let bson := match gcp_endpoint (gcp (provider kek)) with
                | Some e => BSON_APPEND_UTF8 bson "endpoint"
                              (Some (host_and_port (blk_val e)))
                | None => bson
                end in
    Returned (true, bson)
  else
    Returned (true, bson).

(** Modelled from the spec: _mongocrypt_endpoint_copy, of mongocrypt-endpoint.c
    ("deep copy of ... the endpoint structure"): NULL for NULL, otherwise a
    fresh block with the same contents. *)
Definition _mongocrypt_endpoint_copy (src : ptr _mongocrypt_endpoint_t)
    (heap : heap_t) : ptr _mongocrypt_endpoint_t * heap_t :=
  match src with
  | None => (None, heap)
  | Some b => let '(b', heap') := malloc (blk_val b) heap in (Some b', heap')
  end.

(** _mongocrypt_kek_copy_to (src, dst): dst is written field by field, in the
    order of the C code, and the allocator is threaded through the copies. *)
Definition _mongocrypt_kek_copy_to (src dst : _mongocrypt_kek_t) (heap : heap_t)
    : _mongocrypt_kek_t * heap_t :=
  let '(dst, heap) :=
    if kms_provider_eqb (kms_provider src) MONGOCRYPT_KMS_PROVIDER_AWS then
      let '(v, heap) := bson_strdup (aws_cmk (aws (provider src))) heap in
      let dst := set_aws_cmk v dst in
      let '(v, heap) := bson_strdup (aws_region (aws (provider src))) heap in
      let dst := set_aws_region v dst in
      let '(v, heap) :=
        _mongocrypt_endpoint_copy (aws_endpoint (aws (provider src))) heap in
      (set_aws_endpoint v dst, heap)
    else if kms_provider_eqb (kms_provider src) MONGOCRYPT_KMS_PROVIDER_AZURE then
      let '(v, heap) :=
        _mongocrypt_endpoint_copy
          (azure_key_vault_endpoint (azure (provider src))) heap in
      let dst := set_azure_key_vault_endpoint v dst in
      let '(v, heap) :=
        bson_strdup (azure_key_name (azure (provider src))) heap in
      let dst := set_azure_key_name v dst in
      let '(v, heap) :=
        bson_strdup (azure_key_version (azure (provider src))) heap in
      (set_azure_key_version v dst, heap)
    else if kms_provider_eqb (kms_provider src) MONGOCRYPT_KMS_PROVIDER_GCP then
      let '(v, heap) := bson_strdup (gcp_project_id (gcp (provider src))) heap in
      let dst := set_gcp_project_id v dst in
      let '(v, heap) := bson_strdup (gcp_location (gcp (provider src))) heap in
      let dst := set_gcp_location v dst in
      let '(v, heap) := bson_strdup (gcp_key_ring (gcp (provider src))) heap in
      let dst := set_gcp_key_ring v dst in
      let '(v, heap) := bson_strdup (gcp_key_name (gcp (provider src))) heap in
      let dst := set_gcp_key_name v dst in
      let '(v, heap) := bson_strdup (gcp_key_version (gcp (provider src))) heap in
      let dst := set_gcp_key_version v dst in
      let '(v, heap) :=
        _mongocrypt_endpoint_copy (gcp_endpoint (gcp (provider src))) heap in
      (set_gcp_endpoint v dst, heap)
    else (dst, heap) in
  (set_kms_provider (kms_provider src) dst, heap).

(* Semantic equality of descriptors. *)

(** Two strings are the same value: the same characters, or both NULL. *)
Definition cstr_equiv (a b : cstr) : Prop := chars a = chars b.

(** Two endpoints are the same value: the same host-and-port text, or both
    NULL. *)
Definition endpoint_equiv (a b : ptr _mongocrypt_endpoint_t) : Prop :=
  endpoint_host_and_port a = endpoint_host_and_port b.

(** Two endpoints have the same contents, field for field, or are both NULL. *)
Definition endpoint_same (a b : ptr _mongocrypt_endpoint_t) : Prop :=
  option_map blk_val a = option_map blk_val b.

(** Equality of two descriptors up to the addresses of their blocks: the same
    variant tag and, in the member the tag selects, equal strings and
    endpoints related by R, NULL only against NULL. *)
Definition kek_equiv_upto
    (R : ptr _mongocrypt_endpoint_t -> ptr _mongocrypt_endpoint_t -> Prop)
    (a b : _mongocrypt_kek_t) : Prop :=
  kms_provider a = kms_provider b /\
  match kms_provider a with
  | MONGOCRYPT_KMS_PROVIDER_AWS =>
      cstr_equiv (aws_cmk (aws (provider a))) (aws_cmk (aws (provider b))) /\
      cstr_equiv (aws_region (aws (provider a))) (aws_region (aws (provider b))) /\
      R (aws_endpoint (aws (provider a))) (aws_endpoint (aws (provider b)))
  | MONGOCRYPT_KMS_PROVIDER_LOCAL => True
  | MONGOCRYPT_KMS_PROVIDER_AZURE =>
      R (azure_key_vault_endpoint (azure (provider a)))
        (azure_key_vault_endpoint (azure (provider b))) /\
      cstr_equiv (azure_key_name (azure (provider a)))
                 (azure_key_name (azure (provider b))) /\
      cstr_equiv (azure_key_version (azure (provider a)))
                 (azure_key_version (azure (provider b)))
  | MONGOCRYPT_KMS_PROVIDER_GCP =>
      cstr_equiv (gcp_project_id (gcp (provider a)))
                 (gcp_project_id (gcp (provider b))) /\
      cstr_equiv (gcp_location (gcp (provider a)))
                 (gcp_location (gcp (provider b))) /\
      cstr_equiv (gcp_key_ring (gcp (provider a)))
                 (gcp_key_ring (gcp (provider b))) /\
      cstr_equiv (gcp_key_name (gcp (provider a)))
                 (gcp_key_name (gcp (provider b))) /\
      cstr_equiv (gcp_key_version (gcp (provider a)))
                 (gcp_key_version (gcp (provider b))) /\
      R (gcp_endpoint (gcp (provider a))) (gcp_endpoint (gcp (provider b)))
  end.

(** Semantic equality: endpoints are compared by their host-and-port text, the
    one field a serialized descriptor carries. *)
Definition kek_equiv : _mongocrypt_kek_t -> _mongocrypt_kek_t -> Prop :=
  kek_equiv_upto endpoint_equiv.

(** The addresses of the blocks a pointer owns. *)
Definition ptr_addrs {A : Type} (p : ptr A) : list N :=
  match p with
  | Some b => [blk_addr b]
  | None => []
  end.

(** The addresses of the blocks a descriptor owns: those of the member its tag
    selects. *)
Definition kek_addrs (kek : _mongocrypt_kek_t) : list N :=
  match kms_provider kek with
  | MONGOCRYPT_KMS_PROVIDER_AWS =>
      ptr_addrs (aws_cmk (aws (provider kek))) ++
      ptr_addrs (aws_region (aws (provider kek))) ++
      ptr_addrs (aws_endpoint (aws (provider kek)))
  | MONGOCRYPT_KMS_PROVIDER_LOCAL => []
  | MONGOCRYPT_KMS_PROVIDER_AZURE =>
      ptr_addrs (azure_key_vault_endpoint (azure (provider kek))) ++
      ptr_addrs (azure_key_name (azure (provider kek))) ++
      ptr_addrs (azure_key_version (azure (provider kek)))
  | MONGOCRYPT_KMS_PROVIDER_GCP =>
      ptr_addrs (gcp_project_id (gcp (provider kek))) ++
      ptr_addrs (gcp_location (gcp (provider kek))) ++
      ptr_addrs (gcp_key_ring (gcp (provider kek))) ++
      ptr_addrs (gcp_key_name (gcp (provider kek))) ++
      ptr_addrs (gcp_key_version (gcp (provider kek))) ++
      ptr_addrs (gcp_endpoint (gcp (provider kek)))
  end.

(** Every block of the descriptor was allocated before the allocator reached
    `heap`. *)
Definition kek_allocated_below (heap : heap_t) (kek : _mongocrypt_kek_t)
    : Prop :=
  Forall (fun a => (a < heap)%N) (kek_addrs kek).

(* Well-formed descriptors. *)

(** A required string: not NULL, and a string the parse accepts. *)
Definition required_ok (s : cstr) : bool :=
  match s with
  | Some b => utf8_accepted (blk_val b)
  | None => false
  end.

(** An endpoint in host-and-port form: its host_and_port text is itself the
    text of an endpoint, and of one with that same host_and_port. *)
Definition endpoint_normal (e : _mongocrypt_endpoint_t) : bool :=
  match _mongocrypt_endpoint_new (host_and_port e) with
  | Some e' => String.eqb (host_and_port e') (host_and_port e)
  | None => false
  end.

Definition required_endpoint_ok (p : ptr _mongocrypt_endpoint_t) : bool :=
  match p with
  | Some b => endpoint_normal (blk_val b)
  | None => false
  end.

Definition optional_endpoint_ok (p : ptr _mongocrypt_endpoint_t) : bool :=
  match p with
  | Some b => endpoint_normal (blk_val b)
  | None => true
  end.

(** The provider name _mongocrypt_kek_append writes for a variant. *)
Definition kms_provider_name (p : _mongocrypt_kms_provider_t) : string :=
  match p with
  | MONGOCRYPT_KMS_PROVIDER_AWS => "aws"
  | MONGOCRYPT_KMS_PROVIDER_LOCAL => "local"
  | MONGOCRYPT_KMS_PROVIDER_AZURE => "azure"
  | MONGOCRYPT_KMS_PROVIDER_GCP => "gcp"
  end.

(** A well-formed descriptor: the required fields of its variant are
    populated with acceptable strings, and its endpoints are in
    host-and-port form.  Optional fields may be NULL. *)
Definition kek_well_formed (kek : _mongocrypt_kek_t) : bool :=
  match kms_provider kek with
  | MONGOCRYPT_KMS_PROVIDER_AWS =>
      required_ok (aws_cmk (aws (provider kek))) &&
      required_ok (aws_region (aws (provider kek))) &&
      optional_endpoint_ok (aws_endpoint (aws (provider kek)))
  | MONGOCRYPT_KMS_PROVIDER_LOCAL => true
  | MONGOCRYPT_KMS_PROVIDER_AZURE =>
      required_endpoint_ok (azure_key_vault_endpoint (azure (provider kek))) &&
      required_ok (azure_key_name (azure (provider kek)))
  | MONGOCRYPT_KMS_PROVIDER_GCP =>
      required_ok (gcp_project_id (gcp (provider kek))) &&
      required_ok (gcp_location (gcp (provider kek))) &&
      required_ok (gcp_key_ring (gcp (provider kek))) &&
      required_ok (gcp_key_name (gcp (provider kek))) &&
      optional_endpoint_ok (gcp_endpoint (gcp (provider kek)))
  end.

End KekDefinitions.

(* --------------------------------------------------------------------- *)
(*  6. The context dispatcher (mongocrypt-ctx.c)                          *)
(* --------------------------------------------------------------------- *)

Inductive mongocrypt_ctx_state_t : Type :=
| MONGOCRYPT_CTX_ERROR
| MONGOCRYPT_CTX_NOTHING_TO_DO
| MONGOCRYPT_CTX_NEED_MONGO_COLLINFO
| MONGOCRYPT_CTX_NEED_MONGO_MARKINGS
| MONGOCRYPT_CTX_NEED_MONGO_KEYS
| MONGOCRYPT_CTX_NEED_KMS
| MONGOCRYPT_CTX_READY
| MONGOCRYPT_CTX_DONE.

(** mongocrypt_binary_t: the bytes behind a (pointer, length) pair. *)
Definition mongocrypt_binary_t : Type := list Byte.byte.

Definition _mongocrypt_buffer_t : Type := list Byte.byte.

(** Modelled from the spec: _mongocrypt_buffer_from_binary, of
    mongocrypt-buffer.c (not among the sources): the buffer is a view of the
    bytes of the binary ("opaque binary buffers"). *)
Definition _mongocrypt_buffer_from_binary (binary : mongocrypt_binary_t)
    : _mongocrypt_buffer_t := binary.

(** mongocrypt-key-broker.c is not among the sources: the broker embedded in a
    context, the KMS subcontexts it hands out and its operations are
    parameters.  An operation takes the broker and returns it as the call
    leaves it; _mongocrypt_key_broker_filter also takes and returns the
    caller's `out`, and _mongocrypt_key_broker_status the status it copies
    the broker's failure into. *)
Class KeyBroker : Type := {
  _mongocrypt_key_broker_t : Type;
  mongocrypt_kms_ctx_t : Type;
  _mongocrypt_key_broker_filter :
    _mongocrypt_key_broker_t -> mongocrypt_binary_t ->
    bool * _mongocrypt_key_broker_t * mongocrypt_binary_t;
  _mongocrypt_key_broker_add_doc :
    _mongocrypt_key_broker_t -> _mongocrypt_buffer_t ->
    bool * _mongocrypt_key_broker_t;
  _mongocrypt_key_broker_done_adding_docs :
    _mongocrypt_key_broker_t -> bool * _mongocrypt_key_broker_t;
  _mongocrypt_key_broker_next_kms :
    _mongocrypt_key_broker_t ->
    option mongocrypt_kms_ctx_t * _mongocrypt_key_broker_t;
  _mongocrypt_key_broker_kms_done :
    _mongocrypt_key_broker_t -> bool * _mongocrypt_key_broker_t;
  _mongocrypt_key_broker_status :
    _mongocrypt_key_broker_t -> mongocrypt_status_t ->
    bool * mongocrypt_status_t
}.

(** A pointer to a function: the address of its code. *)
Definition fnptr : Type := N.

(** The hook table a variant fills in; NULL where it has no hook. *)
Record _mongocrypt_vtable_t : Type := mk_vtable {
  mongo_op_collinfo : option fnptr;
  mongo_feed_collinfo : option fnptr;
  mongo_done_collinfo : option fnptr;
  mongo_op_markings : option fnptr;
  mongo_feed_markings : option fnptr;
  mongo_done_markings : option fnptr;
  finalize : option fnptr;
  cleanup : option fnptr
}.

Record mongocrypt_ctx_t `{KeyBroker} : Type := mk_ctx {
  kb : _mongocrypt_key_broker_t;
  state : mongocrypt_ctx_state_t;
  status : mongocrypt_status_t;
  vtable : _mongocrypt_vtable_t
}.
Arguments mk_ctx {_} kb state status vtable.

(** The code behind the hooks (mongocrypt-ctx-encrypt.c and
    mongocrypt-ctx-decrypt.c, not among the sources): what a call through a
    pointer of each signature does to the context and to `out`. *)
Class Hooks `{KeyBroker} : Type := {
  call_mongo_op_fn :
    fnptr -> mongocrypt_ctx_t -> mongocrypt_binary_t ->
    outcome (bool * mongocrypt_ctx_t * mongocrypt_binary_t);
  call_mongo_feed_fn :
    fnptr -> mongocrypt_ctx_t -> mongocrypt_binary_t ->
    outcome (bool * mongocrypt_ctx_t);
  call_mongo_done_fn :
    fnptr -> mongocrypt_ctx_t -> outcome (bool * mongocrypt_ctx_t);
  call_finalize_fn :
    fnptr -> mongocrypt_ctx_t -> mongocrypt_binary_t ->
    outcome (bool * mongocrypt_ctx_t * mongocrypt_binary_t)
}.

Section CtxDefinitions.
Context `{ErrorCodes} `{KeyBroker} `{!Hooks}.

Definition set_kb (v : _mongocrypt_key_broker_t) (ctx : mongocrypt_ctx_t)
    : mongocrypt_ctx_t :=
  let '(mk_ctx _ st status vt) := ctx in mk_ctx v st status vt.

Definition set_state (v : mongocrypt_ctx_state_t) (ctx : mongocrypt_ctx_t)
    : mongocrypt_ctx_t :=
  let '(mk_ctx broker _ status vt) := ctx in mk_ctx broker v status vt.

Definition set_status (v : mongocrypt_status_t) (ctx : mongocrypt_ctx_t)
    : mongocrypt_ctx_t :=
  let '(mk_ctx broker st _ vt) := ctx in mk_ctx broker st v vt.

(** _mongocrypt_ctx_fail: "a failure status has already been set". *)
Definition _mongocrypt_ctx_fail (ctx : mongocrypt_ctx_t)
    : outcome (bool * mongocrypt_ctx_t) :=
  if negb (mongocrypt_status_ok (status ctx)) then
    Returned (false, set_state MONGOCRYPT_CTX_ERROR ctx)
  else Aborted.

Definition _mongocrypt_ctx_fail_w_msg (ctx : mongocrypt_ctx_t) (msg : string)
    : outcome (bool * mongocrypt_ctx_t) :=
  let ctx :=
    set_status (_mongocrypt_set_error (status ctx)
                  MONGOCRYPT_STATUS_ERROR_CLIENT
                  MONGOCRYPT_GENERIC_ERROR_CODE msg) ctx in
  _mongocrypt_ctx_fail ctx.

(** The failure path shared by the key hooks and mongocrypt_ctx_kms_done:
    BSON_ASSERT (!_mongocrypt_key_broker_status (&ctx->kb, ctx->status));
    return _mongocrypt_ctx_fail (ctx); *)
Definition fail_with_broker_status (ctx : mongocrypt_ctx_t)
    : outcome (bool * mongocrypt_ctx_t) :=
  let '(ok, status') := _mongocrypt_key_broker_status (kb ctx) (status ctx) in
  let ctx := set_status status' ctx in
  if negb ok then _mongocrypt_ctx_fail ctx else Aborted.

Definition _mongo_op_keys (ctx : mongocrypt_ctx_t) (out : mongocrypt_binary_t)
    : outcome (bool * mongocrypt_ctx_t * mongocrypt_binary_t) :=
  let '(ok, kb', out') := _mongocrypt_key_broker_filter (kb ctx) out in
  let ctx := set_kb kb' ctx in
  if negb ok then
    match fail_with_broker_status ctx with
    | Returned (r, ctx') => Returned (r, ctx', out')
    | Aborted => Aborted
    end
  else Returned (true, ctx, out').

Definition _mongo_feed_keys (ctx : mongocrypt_ctx_t) (in_ : mongocrypt_binary_t)
    : outcome (bool * mongocrypt_ctx_t) :=
  let buf := _mongocrypt_buffer_from_binary in_ in
  let '(ok, kb') := _mongocrypt_key_broker_add_doc (kb ctx) buf in
  let ctx := set_kb kb' ctx in
  if negb ok then fail_with_broker_status ctx
  else Returned (true, ctx).

Definition _mongo_done_keys (ctx : mongocrypt_ctx_t)
    : outcome (bool * mongocrypt_ctx_t) :=
  let ctx := set_state MONGOCRYPT_CTX_NEED_KMS ctx in
  let '(ok, kb') := _mongocrypt_key_broker_done_adding_docs (kb ctx) in
  let ctx := set_kb kb' ctx in
  if negb ok then fail_with_broker_status ctx
  else Returned (true, ctx).

Definition mongocrypt_ctx_mongo_op (ctx : mongocrypt_ctx_t)
    (out : mongocrypt_binary_t)
    : outcome (bool * mongocrypt_ctx_t * mongocrypt_binary_t) :=
  let callme :=
    match state ctx with
    | MONGOCRYPT_CTX_NEED_MONGO_COLLINFO =>
        option_map call_mongo_op_fn (mongo_op_collinfo (vtable ctx))
    | MONGOCRYPT_CTX_NEED_MONGO_MARKINGS =>
        option_map call_mongo_op_fn (mongo_op_markings (vtable ctx))
    | MONGOCRYPT_CTX_NEED_MONGO_KEYS => Some _mongo_op_keys
    | MONGOCRYPT_CTX_NEED_KMS
    | MONGOCRYPT_CTX_ERROR
    | MONGOCRYPT_CTX_DONE
    | MONGOCRYPT_CTX_READY
    | MONGOCRYPT_CTX_NOTHING_TO_DO => None
    end in
  match callme with
  | None =>
      match _mongocrypt_ctx_fail_w_msg ctx "wrong state" with
      | Returned (r, ctx') => Returned (r, ctx', out)
      | Aborted => Aborted
      end
  | Some callme => callme ctx out
  end.

Definition mongocrypt_ctx_mongo_feed (ctx : mongocrypt_ctx_t)
    (in_ : mongocrypt_binary_t) : outcome (bool * mongocrypt_ctx_t) :=
  let callme :=
    match state ctx with
    | MONGOCRYPT_CTX_NEED_MONGO_COLLINFO =>
        option_map call_mongo_feed_fn (mongo_feed_collinfo (vtable ctx))
    | MONGOCRYPT_CTX_NEED_MONGO_MARKINGS =>
        option_map call_mongo_feed_fn (mongo_feed_markings (vtable ctx))
    | MONGOCRYPT_CTX_NEED_MONGO_KEYS => Some _mongo_feed_keys
    | MONGOCRYPT_CTX_NEED_KMS
    | MONGOCRYPT_CTX_ERROR
    | MONGOCRYPT_CTX_DONE
    | MONGOCRYPT_CTX_READY
    | MONGOCRYPT_CTX_NOTHING_TO_DO => None
    end in
  match callme with
  | None => _mongocrypt_ctx_fail_w_msg ctx "wrong state"
  | Some callme => callme ctx in_
  end.

Definition mongocrypt_ctx_mongo_done (ctx : mongocrypt_ctx_t)
    : outcome (bool * mongocrypt_ctx_t) :=
  let callme :=
    match state ctx with
    | MONGOCRYPT_CTX_NEED_MONGO_COLLINFO =>
        option_map call_mongo_done_fn (mongo_done_collinfo (vtable ctx))
    | MONGOCRYPT_CTX_NEED_MONGO_MARKINGS =>
        option_map call_mongo_done_fn (mongo_done_markings (vtable ctx))
    | MONGOCRYPT_CTX_NEED_MONGO_KEYS => Some _mongo_done_keys
    | MONGOCRYPT_CTX_NEED_KMS
    | MONGOCRYPT_CTX_ERROR
    | MONGOCRYPT_CTX_DONE
    | MONGOCRYPT_CTX_READY
    | MONGOCRYPT_CTX_NOTHING_TO_DO => None
    end in
  match callme with
  | None => _mongocrypt_ctx_fail_w_msg ctx "wrong state"
  | Some callme => callme ctx
  end.

Definition mongocrypt_ctx_state (ctx : mongocrypt_ctx_t)
    : mongocrypt_ctx_state_t := state ctx.

(** mongocrypt_ctx_next_kms_ctx: the broker's answer, NULL or not. *)
Definition mongocrypt_ctx_next_kms_ctx (ctx : mongocrypt_ctx_t)
    : option mongocrypt_kms_ctx_t * mongocrypt_ctx_t :=
  let '(kms, kb') := _mongocrypt_key_broker_next_kms (kb ctx) in
  let ctx := set_kb kb' ctx in
  match kms with
  | None => (None, ctx)
  | Some kms => (Some kms, ctx)
  end.

Definition mongocrypt_ctx_kms_done (ctx : mongocrypt_ctx_t)
    : outcome (bool * mongocrypt_ctx_t) :=
  let '(ok, kb') := _mongocrypt_key_broker_kms_done (kb ctx) in
  let ctx := set_kb kb' ctx in
  if negb ok then fail_with_broker_status ctx
  else Returned (true, set_state MONGOCRYPT_CTX_READY ctx).

(** mongocrypt_ctx_finalize: a call through ctx->vtable.finalize, which stops
    the process when the pointer is NULL. *)
Definition mongocrypt_ctx_finalize (ctx : mongocrypt_ctx_t)
    (out : mongocrypt_binary_t)
    : outcome (bool * mongocrypt_ctx_t * mongocrypt_binary_t) :=
  match finalize (vtable ctx) with
  | Some f => call_finalize_fn f ctx out
  | None => Aborted
  end.

(** mongocrypt_ctx_status (ctx, out): the bool returned and `out` as the
    call leaves it. *)
Definition mongocrypt_ctx_status (ctx : mongocrypt_ctx_t)
    (out : mongocrypt_status_t) : bool * mongocrypt_status_t :=
  if negb (mongocrypt_status_ok (status ctx)) then
    (false, _mongocrypt_status_copy_to (status ctx) out)
  else (true, _mongocrypt_status_reset out).

(** What mongocrypt_ctx_destroy does to the world, in order. *)
Inductive destroy_event : Type :=
| call_cleanup (f : fnptr) (ctx : mongocrypt_ctx_t)
| mongocrypt_status_destroy (s : mongocrypt_status_t)
| _mongocrypt_key_broker_cleanup (broker : _mongocrypt_key_broker_t)
| bson_free (ctx : mongocrypt_ctx_t).

(** mongocrypt_ctx_destroy (ctx), ctx being NULL (None) or a context: the
    calls it makes, first to last. *)
Definition mongocrypt_ctx_destroy (ctx : option mongocrypt_ctx_t)
    : list destroy_event :=
  match ctx with
  | None => []
  | Some ctx =>
      (match cleanup (vtable ctx) with
       | Some f => [call_cleanup f ctx]
       | None => []
       end) ++
      [mongocrypt_status_destroy (status ctx);
       _mongocrypt_key_broker_cleanup (kb ctx);
       bson_free ctx]
  end.

End CtxDefinitions.

(* --------------------------------------------------------------------- *)
(*  7. Concrete parameters, for running the code on concrete inputs       *)
(* --------------------------------------------------------------------- *)

Definition generic_error_code_one : ErrorCodes :=
  {| MONGOCRYPT_GENERIC_ERROR_CODE := 1 |}.

(** Drop the prefix p from s, when s starts with it. *)
Fixpoint strip_prefix (p s : string) : option string :=
  match p, s with
  | EmptyString, _ => Some s
  | String a p', String b s' =>
      if Ascii.eqb a b then strip_prefix p' s' else None
  | String _ _, EmptyString => None
  end.

(** A small endpoint: the text it was made from and its host-and-port form,
    which is the text without a leading "https://".  The empty text is no
    endpoint. *)
Record text_endpoint_t : Type := mk_text_endpoint {
  te_original : string;
  te_host_and_port : string
}.

Definition text_endpoint_new (s : string) : option text_endpoint_t :=
  if String.eqb s "" then None
  else Some (mk_text_endpoint s (match strip_prefix "https://" s with
                                 | Some rest => rest
                                 | None => s
                                 end)).

Definition text_endpoint : Endpoint :=
  {| _mongocrypt_endpoint_t := text_endpoint_t;
     host_and_port := te_host_and_port;
     _mongocrypt_endpoint_new := text_endpoint_new |}.

(** The bytes of s are well-formed UTF-8 sequences: every lead byte is
    followed by as many continuation bytes as it announces. *)
Fixpoint utf8_scan (pending : nat) (s : string) : bool :=
  match s with
  | EmptyString => Nat.eqb pending 0
  | String c rest =>
      let n := N_of_ascii c in
      match pending with
      | S p => if ((128 <=? n) && (n <? 192))%N then utf8_scan p rest else false
      | O =>
          if (n <? 128)%N then utf8_scan 0 rest
          else if ((192 <=? n) && (n <? 224))%N then utf8_scan 1 rest
          else if ((224 <=? n) && (n <? 240))%N then utf8_scan 2 rest
          else if ((240 <=? n) && (n <? 248))%N then utf8_scan 3 rest
          else false
      end
  end.

(** Modelled from the spec: the rule for required strings, "valid UTF-8 and
    non-empty".  The message text is not given by the spec. *)
Definition spec_field_rules : FieldRules :=
  {| utf8_accepted := fun s => negb (String.eqb s "") && utf8_scan 0 s;
     helper_error := fun key => ("expected UTF-8 " ++ key)%string |}.

(** A scripted key broker: each operation answers as the field of its name
    says, next_kms hands out the KMS subcontexts of sb_kms one by one, and
    sb_status is the status the broker reports when it is asked for one.  It
    stands for the broker of a context at one moment of its life. *)
Record scripted_broker : Type := mk_scripted_broker {
  sb_filter_ok : bool;
  sb_filter : mongocrypt_binary_t;
  sb_add_doc_ok : bool;
  sb_done_adding_docs_ok : bool;
  sb_kms : list N;
  sb_kms_done_ok : bool;
  sb_status : mongocrypt_status_t
}.

Definition scripted_next_kms (broker : scripted_broker)
    : option N * scripted_broker :=
  match sb_kms broker with
  | [] => (None, broker)
  | kms :: rest =>
      (Some kms,
       mk_scripted_broker (sb_filter_ok broker) (sb_filter broker)
         (sb_add_doc_ok broker) (sb_done_adding_docs_ok broker) rest
         (sb_kms_done_ok broker) (sb_status broker))
  end.

Definition scripted_key_broker : KeyBroker :=
  {| _mongocrypt_key_broker_t := scripted_broker;
     mongocrypt_kms_ctx_t := N;
     _mongocrypt_key_broker_filter := fun broker out =>
       (sb_filter_ok broker, broker,
        if sb_filter_ok broker then sb_filter broker else out);
     _mongocrypt_key_broker_add_doc := fun broker _ =>
       (sb_add_doc_ok broker, broker);
     _mongocrypt_key_broker_done_adding_docs := fun broker =>
       (sb_done_adding_docs_ok broker, broker);
     _mongocrypt_key_broker_next_kms := scripted_next_kms;
     _mongocrypt_key_broker_kms_done := fun broker =>
       (sb_kms_done_ok broker, broker);
     _mongocrypt_key_broker_status := fun broker out =>
       if mongocrypt_status_ok (sb_status broker) then (true, out)
       else (false, sb_status broker) |}.

(** No hook is installed anywhere: a call through any pointer stops. *)
Definition no_hooks : @Hooks scripted_key_broker :=
  {| call_mongo_op_fn := fun _ _ _ => Aborted;
     call_mongo_feed_fn := fun _ _ _ => Aborted;
     call_mongo_done_fn := fun _ _ => Aborted;
     call_finalize_fn := fun _ _ _ => Aborted |}.

Definition empty_vtable : _mongocrypt_vtable_t :=
  mk_vtable None None None None None None None None.

Definition status_ok_value : mongocrypt_status_t :=
  {| status_type := MONGOCRYPT_STATUS_OK; status_code := 0;
     status_message := "" |}.

Section ConcreteInputs.
#[local] Existing Instance generic_error_code_one.
#[local] Existing Instance text_endpoint.
#[local] Existing Instance spec_field_rules.
#[local] Existing Instance scripted_key_broker.
#[local] Existing Instance no_hooks.

Definition empty_kek : _mongocrypt_kek_t :=
  mk_kek MONGOCRYPT_KMS_PROVIDER_LOCAL
    (mk_provider (mk_aws None None None) (mk_azure None None None)
       (mk_gcp None None None None None None)).

(** An AWS descriptor with an endpoint override, its blocks at addresses 0
    to 2; the endpoint was made from a URL. *)
Definition aws_kek_example : _mongocrypt_kek_t :=
  mk_kek MONGOCRYPT_KMS_PROVIDER_AWS
    (mk_provider
       (mk_aws (Some {| blk_addr := 0; blk_val := "arn:aws:kms:key/1234" |})
               (Some {| blk_addr := 1; blk_val := "us-east-1" |})
               (Some {| blk_addr := 2;
                        blk_val := mk_text_endpoint
                                     "https://kms.us-east-1.amazonaws.com:443"
                                     "kms.us-east-1.amazonaws.com:443" |}))
       (mk_azure None None None)
       (mk_gcp None None None None None None)).

(** A document naming a provider the parser does not know. *)
Definition kmip_document : bson_t :=
  [("provider", BSON_UTF8 "kmip"); ("endpoint", BSON_UTF8 "example.com")].

(** The broker of a context in the KMS phase with one subcontext, number 7,
    still to be driven. *)
Definition broker_kms_pending : scripted_broker :=
  mk_scripted_broker true [] true true [7%N] false
    {| status_type := MONGOCRYPT_STATUS_ERROR_CLIENT; status_code := 1;
       status_message := "KMS response unfinished" |}.

(** The broker of a context in the KMS phase whose subcontexts are all
    complete (local keys: none is needed). *)
Definition broker_kms_complete : scripted_broker :=
  mk_scripted_broker true [] true true [] true status_ok_value.

(** A broker that refuses done_adding_docs: a requested key was not fed. *)
Definition broker_missing_key : scripted_broker :=
  mk_scripted_broker true [] true false [] false
    {| status_type := MONGOCRYPT_STATUS_ERROR_CLIENT; status_code := 1;
       status_message := "did not provide all keys" |}.

(** The client error of a call made in the wrong state. *)
Definition wrong_state_error : mongocrypt_status_t :=
  {| status_type := MONGOCRYPT_STATUS_ERROR_CLIENT; status_code := 1;
     status_message := "wrong state" |}.

(** A failure a KMS reported. *)
Definition kms_failure : mongocrypt_status_t :=
  {| status_type := MONGOCRYPT_STATUS_ERROR_KMS; status_code := 1;
     status_message := "Error in KMS response: AccessDeniedException" |}.

Definition ctx_in (st : mongocrypt_ctx_state_t) (broker : scripted_broker)
    (s : mongocrypt_status_t) : mongocrypt_ctx_t :=
  mk_ctx broker st s empty_vtable.

End ConcreteInputs.

(* --------------------------------------------------------------------- *)
(*  8. The Java binding helper (CAPIHelper.java)                          *)
(* --------------------------------------------------------------------- *)

Module CAPIHelper.
Local Open Scope nat_scope.

(** A Java call returns a value or throws. *)
Inductive result (A : Type) : Type :=
| Ok (a : A)
| Thrown (exception : string).
Arguments Ok {A} a.
Arguments Thrown {A} exception.

(** The BSON library (org.bson): documents and the bytes the codec registry's
    encoder writes for one.  Sizes are Java ints; a Java array has fewer than
    2^31 elements, so no size below wraps and sizes are natural numbers. *)
Class BsonCodec : Type := {
  BsonDocument : Type;
  bson_encode : BsonDocument -> list Byte.byte
}.

(** org.bson.io.BasicOutputBuffer: a backing array and the write position. *)
Record BasicOutputBuffer : Type := mk_buffer {
  buffer : list Byte.byte;
  position : nat
}.

(** new BasicOutputBuffer (): 1024 bytes of capacity, nothing written. *)
Definition BasicOutputBuffer_new : BasicOutputBuffer :=
  mk_buffer (replicate 1024 Byte.x00) 0.

(** ensure (more): grow the backing array when `more` bytes do not fit. *)
Definition ensure (more : nat) (b : BasicOutputBuffer) : BasicOutputBuffer :=
  let need := position b + more in
  if need <=? length (buffer b) then b
  else
    let newSize :=
      if length (buffer b) * 2 <? need then need + 128
      else length (buffer b) * 2 in
    mk_buffer (take (position b) (buffer b) ++
               replicate (newSize - position b) Byte.x00)
              (position b).

(** writeBytes (bytes): the bytes go in at the write position. *)
Definition writeBytes (bytes : list Byte.byte) (b : BasicOutputBuffer)
    : BasicOutputBuffer :=
  let b := ensure (length bytes) b in
  mk_buffer (take (position b) (buffer b) ++ bytes ++
             drop (position b + length bytes) (buffer b))
            (position b + length bytes).

Definition getInternalBuffer (b : BasicOutputBuffer) : list Byte.byte :=
  buffer b.

Definition getSize (b : BasicOutputBuffer) : nat := position b.

(** codec.encode (new BsonBinaryWriter (buffer), document, context): what the
    writer's calls leave in the buffer, taken together. *)
Definition encode `{BsonCodec} (b : BasicOutputBuffer)
    (document : BsonDocument) : BasicOutputBuffer :=
  writeBytes (bson_encode document) b.

(** Native memory (JNA): the allocated blocks by their base address. *)
Definition Pointer : Type := N.

(** new DisposableMemory (size): a fresh block of `size` bytes; JNA refuses a
    size that is not positive. *)
Definition DisposableMemory_new (size : nat) (heap : gmap N (list Byte.byte))
    : result (Pointer * gmap N (list Byte.byte)) :=
  if size =? 0 then Thrown "IllegalArgumentException"
  else
    let p := fresh (dom heap) in
    Ok (p, <[p := replicate size Byte.x00]> heap).

(** memory.write (0, buf, 0, length): copy buf[0, length) to the start of the
    block; both ranges are bounds-checked. *)
Definition Memory_write (memory : Pointer) (buf : list Byte.byte)
    (len : nat) (heap : gmap N (list Byte.byte))
    : result (gmap N (list Byte.byte)) :=
  match heap !! memory with
  | None => Thrown "IndexOutOfBoundsException"
  | Some blk =>
      if (len <=? length buf) && (len <=? length blk) then
        Ok (<[memory := take len buf ++ drop len blk]> heap)
      else Thrown "IndexOutOfBoundsException"
  end.

(** Modelled from the spec: mongocrypt_binary_t and its three C functions
    (mongocrypt-binary.c is not among the sources), "opaque binary buffers
    (pointer + length pairs)". *)
Record mongocrypt_binary_t : Type := mongocrypt_binary_new_from_data {
  mongocrypt_binary_data : Pointer;
  mongocrypt_binary_len : nat
}.

(** BinaryHolder keeps the memory alive next to the binary that points at it. *)
Record BinaryHolder : Type := mk_holder {
  getMemory : Pointer;
  getBinary : mongocrypt_binary_t
}.

(** org.bson.RawBsonDocument: a document that is its encoded bytes. *)
Record RawBsonDocument : Type := mk_raw {
  getByteBuffer : list Byte.byte
}.

(** toBinary (BsonDocument document) *)
Definition toBinary `{BsonCodec} (document : BsonDocument)
    (heap : gmap N (list Byte.byte))
    : result (BinaryHolder * gmap N (list Byte.byte)) :=
  let buffer := BasicOutputBuffer_new in
  let buffer := encode buffer document in
  match DisposableMemory_new (getSize buffer) heap with
  | Thrown e => Thrown e
  | Ok (memory, heap) =>
      match Memory_write memory (getInternalBuffer buffer) (getSize buffer)
              heap with
      | Thrown e => Thrown e
      | Ok heap =>
          Ok (mk_holder memory
                (mongocrypt_binary_new_from_data memory (getSize buffer)),
              heap)
      end
  end.

(** toByteBuffer (binary): pointer.getByteBuffer (0, length), the `length`
    bytes at the pointer.  None when they are not inside one block: such a
    view reads memory the binding does not own. *)
Definition toByteBuffer (binary : mongocrypt_binary_t)
    (heap : gmap N (list Byte.byte)) : option (list Byte.byte) :=
  let pointer := mongocrypt_binary_data binary in
  let length_ := mongocrypt_binary_len binary in
  match heap !! pointer with
  | Some blk =>
      if length_ <=? length blk then Some (take length_ blk) else None
  | None => None
  end.

(** toDocument (binary): the bytes of the view, wrapped. *)
Definition toDocument (binary : mongocrypt_binary_t)
    (heap : gmap N (list Byte.byte)) : option RawBsonDocument :=
  match toByteBuffer binary heap with
  | Some bytes => Some (mk_raw bytes)
  | None => None
  end.

(** The codec of raw documents: a document is its bytes. *)
Definition raw_codec : BsonCodec :=
  {| BsonDocument := list Byte.byte; bson_encode := fun d => d |}.

(** The empty BSON document: length 5, no element, terminator. *)
Definition empty_document : list Byte.byte :=
  [Byte.x05; Byte.x00; Byte.x00; Byte.x00; Byte.x00].

End CAPIHelper.

(* ===================================================================== *)
(*  PART II.  THEOREMS                                                    *)
(* ===================================================================== *)

(* --------------------------------------------------------------------- *)
(*  The KEK descriptor                                                    *)
(* --------------------------------------------------------------------- *)

Section KekTheorems.
Context `{ErrorCodes} `{Endpoint} `{FieldRules}.

(** strcmp gives 0 on equal strings, and on no others. *)
Lemma strcmp_refl (a : string) : strcmp a a = 0%Z.
Proof.
  unfold strcmp. pose proof (String.compare_antisym a a) as Hanti.
  destruct (String.compare a a); simpl in Hanti; congruence.
Qed.

Lemma strcmp_neq (a b : string) : a <> b -> (0 =? strcmp a b)%Z = false.
Proof.
  intros Hne. unfold strcmp.
  destruct (String.compare a b) eqn:E; try reflexivity.
  apply String.compare_eq_iff in E. contradiction.
Qed.

Lemma required_ok_inv (s : cstr) :
  required_ok s = true ->
  exists b, s = Some b /\ utf8_accepted (blk_val b) = true.
Proof.
  destruct s as [b|]; simpl; intros Hs; [eauto | discriminate].
Qed.

Lemma endpoint_normal_inv (e : _mongocrypt_endpoint_t) :
  endpoint_normal e = true ->
  exists e', _mongocrypt_endpoint_new (host_and_port e) = Some e' /\
             host_and_port e' = host_and_port e.
Proof.
  unfold endpoint_normal.
  destruct (_mongocrypt_endpoint_new (host_and_port e)) as [e'|]; [|discriminate].
  intros Heq. apply String.eqb_eq in Heq. eauto.
Qed.

Ltac run_parser :=
  repeat match goal with
         | Hacc : utf8_accepted _ = true |- _ => rewrite Hacc
         | Hnew : _mongocrypt_endpoint_new _ = Some _ |- _ => rewrite Hnew
         | Hhp : host_and_port _ = host_and_port _ |- _ => rewrite Hhp
         | _ => progress cbn
         end.

Ltac split_wf Hwf :=
  repeat match type of Hwf with
         | (_ && _)%bool = true =>
             let Hl := fresh "Hwf" in
             apply andb_prop in Hwf as [Hwf Hl]
         end;
  repeat match goal with
         | Hr : required_ok ?s = true |- _ =>
             let b := fresh "b" in
             let Hb := fresh "Hacc" in
             apply required_ok_inv in Hr as (b & -> & Hb)
         | Hr : required_endpoint_ok ?s = true |- _ =>
             destruct s; simpl in Hr; [|discriminate]
         | Hr : optional_endpoint_ok ?s = true |- _ =>
             destruct s; simpl in Hr
         | Hr : endpoint_normal _ = true |- _ =>
             let e := fresh "e" in
             let Hnew := fresh "Hnew" in
             let Hhp := fresh "Hhp" in
             apply endpoint_normal_inv in Hr as (e & Hnew & Hhp)
         end.

Ltac roundtrip :=
  eexists _, _, _; (split; [reflexivity|]);
  unfold _mongocrypt_kek_parse_owned, _mongocrypt_kek_parse_owned_body;
  run_parser; (split; [reflexivity|]);
  unfold kek_equiv, kek_equiv_upto, cstr_equiv, endpoint_equiv;
  run_parser; auto 10.

(** C1.  Serializing a well-formed descriptor k into an empty document with
    _mongocrypt_kek_append and parsing that document with
    _mongocrypt_kek_parse_owned succeeds, leaves the status untouched and
    yields a descriptor semantically equal to k: the same variant tag, the
    same characters in every populated string, the same host-and-port text in
    every populated endpoint, and NULL wherever k has NULL.  The out-parameter
    may hold anything before the call.  The parse helpers must accept the
    provider name that append writes, as they accept k's required strings. *)
Theorem kek_parse_append_roundtrip
    (k kek0 : _mongocrypt_kek_t) (status : mongocrypt_status_t) (heap : heap_t) :
  kek_well_formed k = true ->
  utf8_accepted (kms_provider_name (kms_provider k)) = true ->
  exists bson k' heap',
    _mongocrypt_kek_append k [] status = Returned (true, bson) /\
    _mongocrypt_kek_parse_owned bson kek0 status heap = (true, k', status, heap') /\
    kek_equiv k' k.
Proof.
  destruct k as [tag [[cmk region aep] [kve kname kver] [pid loc ring gname gver gep]]].
  destruct kek0 as [tag0 [[] [] []]].
  unfold kek_well_formed; destruct tag; simpl; intros Hwf Hname.
  - split_wf Hwf; roundtrip.
  - roundtrip.
  - split_wf Hwf; destruct kver; roundtrip.
  - split_wf Hwf; destruct gver; roundtrip.
Qed.

(** C2.  When the `provider` field of the document is a string X that the
    required-string helper accepts and X is none of "aws", "azure", "gcp",
    "local", _mongocrypt_kek_parse_owned returns false and leaves in the status
    a client error whose message is "unrecognized KMS provider: X".  The
    descriptor is not written. *)
Theorem kek_parse_unrecognized_provider
    (bson : bson_t) (X : string) (kek : _mongocrypt_kek_t)
    (status : mongocrypt_status_t) (heap : heap_t) :
  bson_iter_find bson "provider" = Some (BSON_UTF8 X) ->
  utf8_accepted X = true ->
  X <> "aws" -> X <> "azure" -> X <> "gcp" -> X <> "local" ->
  _mongocrypt_kek_parse_owned bson kek status heap =
    (false, kek,
     {| status_type := MONGOCRYPT_STATUS_ERROR_CLIENT;
        status_code := MONGOCRYPT_GENERIC_ERROR_CODE;
        status_message := "unrecognized KMS provider: " ++ X |},
     N.succ heap).
Proof.
  intros Hfind Hacc Haws Hazure Hgcp Hlocal.
  unfold _mongocrypt_kek_parse_owned, _mongocrypt_kek_parse_owned_body,
    _mongocrypt_parse_required_utf8, parser_bind.
  rewrite Hfind, Hacc. cbn [parser_alloc malloc blk_val].
  rewrite !strcmp_neq by assumption.
  reflexivity.
Qed.

Lemma allocated_below_disjoint (heap : heap_t) (old new : list N) :
  Forall (fun a => (a < heap)%N) old ->
  Forall (fun a => (heap <= a)%N) new ->
  forall a, In a new -> ~ In a old.
Proof.
  intros Hold Hnew a Hin Hin'.
  rewrite Forall_forall in Hold, Hnew.
  apply list_elem_of_In in Hin, Hin'.
  specialize (Hold a Hin'). specialize (Hnew a Hin). lia.
Qed.

Ltac fresh_addrs :=
  repeat match goal with
         | |- NoDup _ => constructor
         | |- Forall _ _ => constructor
         | |- _ /\ _ => split
         | |- ~ _ => rewrite ?list_elem_of_In; simpl; intros ?
         | |- _ ∉ _ => rewrite ?list_elem_of_In; simpl; intros ?
         | Hor : _ \/ _ |- _ => destruct Hor
         | _ => lia || tauto || reflexivity
         end.

(** C7.  _mongocrypt_kek_copy_to gives the destination the variant tag of the
    source and, in the member the tag selects, copies of every string and
    endpoint: the same contents field for field (hence semantically equal),
    NULL exactly where the source has NULL, each copy in a block of its own
    that was allocated by the call and is therefore none of the source's
    blocks. *)
Theorem kek_copy_to_deep_copy (src dst : _mongocrypt_kek_t) (heap : heap_t) :
  kek_allocated_below heap src ->
  kms_provider (fst (_mongocrypt_kek_copy_to src dst heap)) = kms_provider src /\
  kek_equiv_upto endpoint_same (fst (_mongocrypt_kek_copy_to src dst heap)) src /\
  kek_equiv (fst (_mongocrypt_kek_copy_to src dst heap)) src /\
  NoDup (kek_addrs (fst (_mongocrypt_kek_copy_to src dst heap))) /\
  (forall a, In a (kek_addrs (fst (_mongocrypt_kek_copy_to src dst heap))) ->
             (heap <= a)%N /\ ~ In a (kek_addrs src)).
Proof.
  intros Hbelow.
  assert (Hnew : kms_provider (fst (_mongocrypt_kek_copy_to src dst heap)) = kms_provider src /\
   kek_equiv_upto endpoint_same (fst (_mongocrypt_kek_copy_to src dst heap)) src /\
   kek_equiv (fst (_mongocrypt_kek_copy_to src dst heap)) src /\
   NoDup (kek_addrs (fst (_mongocrypt_kek_copy_to src dst heap))) /\
   Forall (fun a => (heap <= a)%N) (kek_addrs (fst (_mongocrypt_kek_copy_to src dst heap)))).
  { clear Hbelow.
    destruct src as [tag [[cmk region aep] [kve kname kver] [pid loc ring gname gver gep]]].
    destruct dst as [tag0 [[] [] []]].
    destruct tag.
    - destruct cmk, region, aep; cbn; unfold kek_equiv, kek_equiv_upto, cstr_equiv, endpoint_equiv, endpoint_same; cbn; fresh_addrs.
    - cbn; unfold kek_equiv, kek_equiv_upto; cbn; fresh_addrs.
    - destruct kve, kname, kver; cbn; unfold kek_equiv, kek_equiv_upto, cstr_equiv, endpoint_equiv, endpoint_same; cbn; fresh_addrs.
    - destruct pid, loc, ring, gname, gver, gep; cbn; unfold kek_equiv, kek_equiv_upto, cstr_equiv, endpoint_equiv, endpoint_same; cbn; fresh_addrs. }
  destruct Hnew as (Htag & Hsame & Hequiv & Hnodup & Hfresh).
  split; [exact Htag|]. split; [exact Hsame|]. split; [exact Hequiv|].
  split; [exact Hnodup|]. intros a Hin. split.
  - rewrite Forall_forall in Hfresh. apply Hfresh, list_elem_of_In, Hin.
  - eapply allocated_below_disjoint; eassumption.
Qed.
End KekTheorems.

(* Witnesses of the KEK theorems, on concrete descriptors. *)

Section KekWitnesses.
#[local] Existing Instance generic_error_code_one.
#[local] Existing Instance text_endpoint.
#[local] Existing Instance spec_field_rules.

Lemma kek_parse_append_roundtrip_witness :
  exists bson k' heap',
    _mongocrypt_kek_append aws_kek_example [] status_ok_value =
      Returned (true, bson) /\
    _mongocrypt_kek_parse_owned bson empty_kek status_ok_value 3%N =
      (true, k', status_ok_value, heap') /\
    kek_equiv k' aws_kek_example.
Proof.
  apply (kek_parse_append_roundtrip aws_kek_example empty_kek status_ok_value 3%N);
    reflexivity.
Defined.

Lemma kek_parse_unrecognized_provider_witness :
  _mongocrypt_kek_parse_owned kmip_document empty_kek status_ok_value 0%N =
    (false, empty_kek,
     {| status_type := MONGOCRYPT_STATUS_ERROR_CLIENT;
        status_code := 1;
        status_message := "unrecognized KMS provider: kmip" |},
     1%N).
Proof.
  exact (kek_parse_unrecognized_provider kmip_document "kmip" empty_kek
           status_ok_value 0%N eq_refl eq_refl
           ltac:(discriminate) ltac:(discriminate)
           ltac:(discriminate) ltac:(discriminate)).
Defined.

Lemma kek_copy_to_deep_copy_witness :
  kms_provider (fst (_mongocrypt_kek_copy_to aws_kek_example empty_kek 3%N)) =
    MONGOCRYPT_KMS_PROVIDER_AWS /\
  kek_equiv_upto endpoint_same
    (fst (_mongocrypt_kek_copy_to aws_kek_example empty_kek 3%N))
    aws_kek_example /\
  kek_equiv (fst (_mongocrypt_kek_copy_to aws_kek_example empty_kek 3%N))
    aws_kek_example /\
  NoDup (kek_addrs (fst (_mongocrypt_kek_copy_to aws_kek_example empty_kek 3%N))) /\
  (forall a,
     In a (kek_addrs (fst (_mongocrypt_kek_copy_to aws_kek_example empty_kek 3%N))) ->
     (3 <= a)%N /\ ~ In a (kek_addrs aws_kek_example)).
Proof.
  apply (kek_copy_to_deep_copy aws_kek_example empty_kek 3%N).
  unfold kek_allocated_below. simpl. repeat constructor.
Defined.

End KekWitnesses.

(* --------------------------------------------------------------------- *)
(*  The context dispatcher                                                *)
(* --------------------------------------------------------------------- *)

Section CtxTheorems.
Context `{ErrorCodes} `{KeyBroker} `{!Hooks}.

(** The status _mongocrypt_ctx_fail_w_msg leaves is never ok, so its
    assertion holds and the call returns. *)
Lemma ctx_fail_w_msg_returns (ctx : mongocrypt_ctx_t) (msg : string) :
  _mongocrypt_ctx_fail_w_msg ctx msg =
    Returned (false,
              mk_ctx (kb ctx) MONGOCRYPT_CTX_ERROR
                {| status_type := MONGOCRYPT_STATUS_ERROR_CLIENT;
                   status_code := MONGOCRYPT_GENERIC_ERROR_CODE;
                   status_message := msg |}
                (vtable ctx)).
Proof. destruct ctx; reflexivity. Qed.

(** C3.  In every state other than the three NEED_MONGO_* states, each of
    mongocrypt_ctx_mongo_op, mongocrypt_ctx_mongo_feed and
    mongocrypt_ctx_mongo_done returns false and leaves the context in
    MONGOCRYPT_CTX_ERROR with a client-error status whose message is
    "wrong state"; the broker, the hook table and `out` are untouched. *)
Theorem mongo_calls_reject_wrong_state
    (ctx : mongocrypt_ctx_t) (out in_ : mongocrypt_binary_t) :
  state ctx <> MONGOCRYPT_CTX_NEED_MONGO_COLLINFO ->
  state ctx <> MONGOCRYPT_CTX_NEED_MONGO_MARKINGS ->
  state ctx <> MONGOCRYPT_CTX_NEED_MONGO_KEYS ->
  let failed :=
    mk_ctx (kb ctx) MONGOCRYPT_CTX_ERROR
      {| status_type := MONGOCRYPT_STATUS_ERROR_CLIENT;
         status_code := MONGOCRYPT_GENERIC_ERROR_CODE;
         status_message := "wrong state" |}
      (vtable ctx) in
  mongocrypt_ctx_mongo_op ctx out = Returned (false, failed, out) /\
  mongocrypt_ctx_mongo_feed ctx in_ = Returned (false, failed) /\
  mongocrypt_ctx_mongo_done ctx = Returned (false, failed).
Proof.
  intros Hcollinfo Hmarkings Hkeys failed.
  unfold mongocrypt_ctx_mongo_op, mongocrypt_ctx_mongo_feed,
    mongocrypt_ctx_mongo_done.
  rewrite ctx_fail_w_msg_returns.
  destruct (state ctx); try contradiction; repeat split; reflexivity.
Qed.

(** C4, as amended.  On a context in MONGOCRYPT_CTX_ERROR each of
    mongocrypt_ctx_mongo_op, mongocrypt_ctx_mongo_feed and
    mongocrypt_ctx_mongo_done returns false and leaves the context in
    MONGOCRYPT_CTX_ERROR with a status that is still a failure; the status is
    the client error "wrong state", whatever it was before. *)
Theorem error_state_mongo_calls_fail
    (ctx : mongocrypt_ctx_t) (out in_ : mongocrypt_binary_t) :
  state ctx = MONGOCRYPT_CTX_ERROR ->
  exists ctx',
    mongocrypt_ctx_mongo_op ctx out = Returned (false, ctx', out) /\
    mongocrypt_ctx_mongo_feed ctx in_ = Returned (false, ctx') /\
    mongocrypt_ctx_mongo_done ctx = Returned (false, ctx') /\
    mongocrypt_ctx_state ctx' = MONGOCRYPT_CTX_ERROR /\
    mongocrypt_status_ok (status ctx') = false /\
    status_type (status ctx') = MONGOCRYPT_STATUS_ERROR_CLIENT /\
    status_message (status ctx') = "wrong state".
Proof.
  intros Herr.
  unfold mongocrypt_ctx_mongo_op, mongocrypt_ctx_mongo_feed,
    mongocrypt_ctx_mongo_done.
  rewrite ctx_fail_w_msg_returns, Herr.
  eexists. repeat split; reflexivity.
Qed.

(** mongocrypt_ctx_next_kms_ctx never reads the state: it returns what the
    broker's next_kms returns. *)
Lemma next_kms_ctx_is_broker_next_kms (ctx : mongocrypt_ctx_t) :
  mongocrypt_ctx_next_kms_ctx ctx =
    (fst (_mongocrypt_key_broker_next_kms (kb ctx)),
     set_kb (snd (_mongocrypt_key_broker_next_kms (kb ctx))) ctx).
Proof.
  unfold mongocrypt_ctx_next_kms_ctx.
  destruct (_mongocrypt_key_broker_next_kms (kb ctx)) as [[kms|] kb']; reflexivity.
Qed.

(** When the broker's kms_done succeeds, mongocrypt_ctx_kms_done returns true
    and the context is in MONGOCRYPT_CTX_READY, from any state. *)
Lemma kms_done_success (ctx : mongocrypt_ctx_t)
    (kb' : _mongocrypt_key_broker_t) :
  _mongocrypt_key_broker_kms_done (kb ctx) = (true, kb') ->
  mongocrypt_ctx_kms_done ctx =
    Returned (true, mk_ctx kb' MONGOCRYPT_CTX_READY (status ctx) (vtable ctx)).
Proof.
  intros Hdone. unfold mongocrypt_ctx_kms_done. rewrite Hdone.
  destruct ctx; reflexivity.
Qed.

(** When the broker's kms_done fails and the broker reports a failure status,
    mongocrypt_ctx_kms_done copies that status, enters MONGOCRYPT_CTX_ERROR and
    returns false. *)
Lemma kms_done_failure (ctx : mongocrypt_ctx_t)
    (kb' : _mongocrypt_key_broker_t) (failure : mongocrypt_status_t) :
  _mongocrypt_key_broker_kms_done (kb ctx) = (false, kb') ->
  _mongocrypt_key_broker_status kb' (status ctx) = (false, failure) ->
  mongocrypt_status_ok failure = false ->
  mongocrypt_ctx_kms_done ctx =
    Returned (false, mk_ctx kb' MONGOCRYPT_CTX_ERROR failure (vtable ctx)).
Proof.
  intros Hdone Hstatus Hfail. unfold mongocrypt_ctx_kms_done. rewrite Hdone.
  destruct ctx as [kb0 st0 status0 vt0]; simpl in *.
  unfold fail_with_broker_status; simpl. rewrite Hstatus; simpl.
  unfold _mongocrypt_ctx_fail; simpl. rewrite Hfail. reflexivity.
Qed.

(** C8.  On a context in MONGOCRYPT_CTX_NEED_MONGO_KEYS,
    mongocrypt_ctx_mongo_done returns true exactly when the broker accepts
    done_adding_docs, and the state read afterwards is then
    MONGOCRYPT_CTX_NEED_KMS; when it returns false the state read afterwards
    is MONGOCRYPT_CTX_ERROR.  The call fails to return only by the assertion
    of the failure path: the broker refused and yet reported no failure
    status. *)
Theorem mongo_done_keys_state_reflects_outcome (ctx : mongocrypt_ctx_t) :
  state ctx = MONGOCRYPT_CTX_NEED_MONGO_KEYS ->
  let '(accepted, kb') := _mongocrypt_key_broker_done_adding_docs (kb ctx) in
  match mongocrypt_ctx_mongo_done ctx with
  | Returned (true, ctx') =>
      accepted = true /\
      mongocrypt_ctx_state ctx' = MONGOCRYPT_CTX_NEED_KMS
  | Returned (false, ctx') =>
      accepted = false /\
      mongocrypt_ctx_state ctx' = MONGOCRYPT_CTX_ERROR
  | Aborted =>
      accepted = false /\
      (fst (_mongocrypt_key_broker_status kb' (status ctx)) = true \/
       mongocrypt_status_ok
         (snd (_mongocrypt_key_broker_status kb' (status ctx))) = true)
  end.
Proof.
  intros Hkeys.
  unfold mongocrypt_ctx_mongo_done. rewrite Hkeys.
  unfold _mongo_done_keys.
  destruct ctx as [kb0 st0 status0 vt0]; simpl in *.
  destruct (_mongocrypt_key_broker_done_adding_docs kb0) as [[|] kb']; simpl.
  - split; reflexivity.
  - unfold fail_with_broker_status; simpl.
    destruct (_mongocrypt_key_broker_status kb' status0) as [[|] status']; simpl.
    + split; [reflexivity | left; reflexivity].
    + unfold _mongocrypt_ctx_fail; simpl.
      destruct (mongocrypt_status_ok status'); simpl.
      * split; [reflexivity | right; reflexivity].
      * split; reflexivity.
Qed.

(** C9.  mongocrypt_ctx_destroy on a NULL context makes no call at all: no
    cleanup hook, no status release, no broker cleanup, no free. *)
Theorem ctx_destroy_null_is_noop :
  mongocrypt_ctx_destroy None = [].
Proof. reflexivity. Qed.

(** On a context that is not NULL the calls are the cleanup hook, when there
    is one, then the status, the broker and the storage, in this order. *)
Lemma ctx_destroy_releases (ctx : mongocrypt_ctx_t) :
  exists hook,
    mongocrypt_ctx_destroy (Some ctx) =
      hook ++ [mongocrypt_status_destroy (status ctx);
               _mongocrypt_key_broker_cleanup (kb ctx);
               bson_free ctx] /\
    (hook = [] \/ exists f, cleanup (vtable ctx) = Some f /\
                            hook = [call_cleanup f ctx]).
Proof.
  unfold mongocrypt_ctx_destroy.
  destruct (cleanup (vtable ctx)) as [f|]; eexists; split; eauto.
Qed.

End CtxTheorems.

(* The dispatcher on concrete contexts. *)

Section CtxWitnesses.
#[local] Existing Instance generic_error_code_one.
#[local] Existing Instance scripted_key_broker.
#[local] Existing Instance no_hooks.

Lemma mongo_calls_reject_wrong_state_witness :
  mongocrypt_ctx_mongo_op
    (ctx_in MONGOCRYPT_CTX_READY broker_kms_complete status_ok_value) [] =
    Returned (false,
              ctx_in MONGOCRYPT_CTX_ERROR broker_kms_complete wrong_state_error,
              []) /\
  mongocrypt_ctx_mongo_feed
    (ctx_in MONGOCRYPT_CTX_READY broker_kms_complete status_ok_value)
    [Byte.x05] =
    Returned (false,
              ctx_in MONGOCRYPT_CTX_ERROR broker_kms_complete wrong_state_error) /\
  mongocrypt_ctx_mongo_done
    (ctx_in MONGOCRYPT_CTX_READY broker_kms_complete status_ok_value) =
    Returned (false,
              ctx_in MONGOCRYPT_CTX_ERROR broker_kms_complete wrong_state_error).
Proof.
  exact (mongo_calls_reject_wrong_state
           (ctx_in MONGOCRYPT_CTX_READY broker_kms_complete status_ok_value)
           [] [Byte.x05]
           ltac:(discriminate) ltac:(discriminate) ltac:(discriminate)).
Defined.

(** C4 fails as stated: a context that entered MONGOCRYPT_CTX_ERROR with a KMS
    failure loses that status to a later mongocrypt_ctx_mongo_op, which writes
    the client error "wrong state" over it. *)
Lemma error_status_overwritten :
  state (ctx_in MONGOCRYPT_CTX_ERROR broker_kms_complete kms_failure) =
    MONGOCRYPT_CTX_ERROR /\
  status (ctx_in MONGOCRYPT_CTX_ERROR broker_kms_complete kms_failure) =
    kms_failure /\
  mongocrypt_ctx_mongo_op
    (ctx_in MONGOCRYPT_CTX_ERROR broker_kms_complete kms_failure) [] =
    Returned (false,
              ctx_in MONGOCRYPT_CTX_ERROR broker_kms_complete wrong_state_error,
              []) /\
  status_type wrong_state_error <> status_type kms_failure /\
  status_message wrong_state_error <> status_message kms_failure.
Proof.
  repeat split; (reflexivity || discriminate).
Qed.

Lemma error_state_mongo_calls_fail_witness :
  exists ctx',
    mongocrypt_ctx_mongo_op
      (ctx_in MONGOCRYPT_CTX_ERROR broker_kms_complete kms_failure) [] =
      Returned (false, ctx', []) /\
    mongocrypt_ctx_mongo_feed
      (ctx_in MONGOCRYPT_CTX_ERROR broker_kms_complete kms_failure) [] =
      Returned (false, ctx') /\
    mongocrypt_ctx_mongo_done
      (ctx_in MONGOCRYPT_CTX_ERROR broker_kms_complete kms_failure) =
      Returned (false, ctx') /\
    mongocrypt_ctx_state ctx' = MONGOCRYPT_CTX_ERROR /\
    mongocrypt_status_ok (status ctx') = false /\
    status_type (status ctx') = MONGOCRYPT_STATUS_ERROR_CLIENT /\
    status_message (status ctx') = "wrong state".
Proof.
  exact (error_state_mongo_calls_fail
           (ctx_in MONGOCRYPT_CTX_ERROR broker_kms_complete kms_failure)
           [] [] eq_refl).
Defined.

(** C5, the code at a failing input.  A context in MONGOCRYPT_CTX_NEED_KMS
    whose broker still has subcontext 7 to drive receives a
    mongocrypt_ctx_mongo_op, which is refused and moves it to
    MONGOCRYPT_CTX_ERROR; mongocrypt_ctx_next_kms_ctx then hands out
    subcontext 7 all the same. *)
Lemma next_kms_ctx_ignores_state :
  mongocrypt_ctx_mongo_op
    (ctx_in MONGOCRYPT_CTX_NEED_KMS broker_kms_pending status_ok_value) [] =
    Returned (false,
              ctx_in MONGOCRYPT_CTX_ERROR broker_kms_pending wrong_state_error,
              []) /\
  mongocrypt_ctx_state
    (ctx_in MONGOCRYPT_CTX_ERROR broker_kms_pending wrong_state_error) =
    MONGOCRYPT_CTX_ERROR /\
  fst (mongocrypt_ctx_next_kms_ctx
         (ctx_in MONGOCRYPT_CTX_ERROR broker_kms_pending wrong_state_error)) =
    Some 7%N.
Proof. repeat split; reflexivity. Qed.

(** C6, the code at a failing input.  A context in MONGOCRYPT_CTX_NEED_KMS
    whose subcontexts are all complete receives a mongocrypt_ctx_mongo_feed,
    which is refused and moves it to MONGOCRYPT_CTX_ERROR;
    mongocrypt_ctx_kms_done then asks the broker all the same, returns true
    and moves the context to MONGOCRYPT_CTX_READY, its status still the
    client error. *)
Lemma kms_done_ignores_state :
  mongocrypt_ctx_mongo_feed
    (ctx_in MONGOCRYPT_CTX_NEED_KMS broker_kms_complete status_ok_value)
    [Byte.x05] =
    Returned (false,
              ctx_in MONGOCRYPT_CTX_ERROR broker_kms_complete wrong_state_error) /\
  mongocrypt_ctx_kms_done
    (ctx_in MONGOCRYPT_CTX_ERROR broker_kms_complete wrong_state_error) =
    Returned (true,
              ctx_in MONGOCRYPT_CTX_READY broker_kms_complete wrong_state_error) /\
  mongocrypt_ctx_status
    (ctx_in MONGOCRYPT_CTX_READY broker_kms_complete wrong_state_error)
    status_ok_value = (false, wrong_state_error).
Proof. repeat split; reflexivity. Qed.

Lemma mongo_done_keys_state_reflects_outcome_witness :
  (true = true /\
   mongocrypt_ctx_state
     (ctx_in MONGOCRYPT_CTX_NEED_KMS broker_kms_complete status_ok_value) =
     MONGOCRYPT_CTX_NEED_KMS) /\
  (false = false /\
   mongocrypt_ctx_state
     (ctx_in MONGOCRYPT_CTX_ERROR broker_missing_key (sb_status broker_missing_key)) =
     MONGOCRYPT_CTX_ERROR).
Proof.
  split.
  - exact (mongo_done_keys_state_reflects_outcome
             (ctx_in MONGOCRYPT_CTX_NEED_MONGO_KEYS broker_kms_complete
                status_ok_value) eq_refl).
  - exact (mongo_done_keys_state_reflects_outcome
             (ctx_in MONGOCRYPT_CTX_NEED_MONGO_KEYS broker_missing_key
                status_ok_value) eq_refl).
Defined.

End CtxWitnesses.

(* --------------------------------------------------------------------- *)
(*  The Java binding helper                                               *)
(* --------------------------------------------------------------------- *)

Section CAPIHelperTheorems.
Context `{CAPIHelper.BsonCodec}.
Local Open Scope nat_scope.

(** After the encoder has written into a new buffer, the first getSize bytes
    of the backing array are the encoding, whatever the capacity. *)
Lemma encode_new_buffer (document : CAPIHelper.BsonDocument) :
  CAPIHelper.getSize
    (CAPIHelper.encode CAPIHelper.BasicOutputBuffer_new document) =
    length (CAPIHelper.bson_encode document) /\
  take (length (CAPIHelper.bson_encode document))
    (CAPIHelper.getInternalBuffer
       (CAPIHelper.encode CAPIHelper.BasicOutputBuffer_new document)) =
    CAPIHelper.bson_encode document.
Proof.
  unfold CAPIHelper.encode, CAPIHelper.writeBytes, CAPIHelper.ensure,
    CAPIHelper.getSize, CAPIHelper.getInternalBuffer,
    CAPIHelper.BasicOutputBuffer_new.
  cbn [CAPIHelper.position CAPIHelper.buffer Nat.add].
  destruct (_ <=? _); cbn [CAPIHelper.position CAPIHelper.buffer Nat.add].
  all: split; [reflexivity|].
  all: rewrite take_0, app_nil_l.
  all: rewrite take_app_length; reflexivity.
Qed.

(** C10.  toBinary followed by toDocument gives back a raw document whose
    bytes are the BSON encoding of the document that went in.  The encoding
    must not be empty (a BSON document never is: it has at least five bytes),
    since no native block of size zero can be allocated. *)
Theorem toDocument_toBinary_roundtrip
    (document : CAPIHelper.BsonDocument) (heap : gmap N (list Byte.byte)) :
  CAPIHelper.bson_encode document <> [] ->
  exists holder heap',
    CAPIHelper.toBinary document heap = CAPIHelper.Ok (holder, heap') /\
    CAPIHelper.toDocument (CAPIHelper.getBinary holder) heap' =
      Some (CAPIHelper.mk_raw (CAPIHelper.bson_encode document)).
Proof.
  intros Hnonempty.
  destruct (encode_new_buffer document) as [Hsize Hbytes].
  unfold CAPIHelper.toBinary, CAPIHelper.DisposableMemory_new.
  rewrite Hsize.
  assert (Hlen : length (CAPIHelper.bson_encode document) <> 0).
  { destruct (CAPIHelper.bson_encode document); [congruence | discriminate]. }
  apply Nat.eqb_neq in Hlen. rewrite Hlen.
  unfold CAPIHelper.Memory_write. rewrite lookup_insert_eq.
  rewrite length_replicate, Nat.leb_refl, andb_true_r.
  assert (Hfit : (length (CAPIHelper.bson_encode document) <=?
                  length (CAPIHelper.getInternalBuffer
                            (CAPIHelper.encode CAPIHelper.BasicOutputBuffer_new
                               document))) = true).
  { apply Nat.leb_le.
    rewrite <- Hbytes at 1. rewrite length_take. lia. }
  rewrite Hfit, Hbytes.
  eexists _, _. split; [reflexivity|].
  unfold CAPIHelper.toDocument, CAPIHelper.toByteBuffer.
  cbn [CAPIHelper.getBinary CAPIHelper.mongocrypt_binary_data
       CAPIHelper.mongocrypt_binary_len].
  rewrite lookup_insert_eq.
  rewrite drop_ge by (rewrite length_replicate; lia).
  rewrite app_nil_r, Nat.leb_refl, take_ge by lia.
  reflexivity.
Qed.

End CAPIHelperTheorems.

Lemma toDocument_toBinary_roundtrip_witness :
  exists holder heap',
    @CAPIHelper.toBinary CAPIHelper.raw_codec CAPIHelper.empty_document ∅ =
      CAPIHelper.Ok (holder, heap') /\
    CAPIHelper.toDocument (CAPIHelper.getBinary holder) heap' =
      Some (CAPIHelper.mk_raw CAPIHelper.empty_document).
Proof.
  exact (@toDocument_toBinary_roundtrip CAPIHelper.raw_codec
           CAPIHelper.empty_document ∅ ltac:(discriminate)).
Defined.
